(** * linodego: the error layer of the API client (errors.go)

    A shallow embedding of [errors.go]: the canonical [Error], the API error
    body ([APIError], [APIErrorReason]), the classifier [coupleAPIErrors],
    the normalizer [NewError] and the status matcher [ErrHasStatus].

    Conventions.
    - Go's [int] is a [Z]; the code only compares status codes.
    - A Go [string] and a [[]byte] are a [string] (a sequence of bytes).
    - A [*http.Response] is a location of the store; the store gives the
      object each location designates, and the functions that write through
      the pointer return the new store.
    - A [*Error] is [option Error]: [None] is the nil pointer. The identity of
      [*Error] pointers is not modelled, two pointers are compared by what
      they point to.
    - An interface value that may be nil ([error], [any], [io.ReadCloser]) is
      an [option]; a nil [*Error] stored in an [error] is [Some (PtrError None)],
      which is not the nil interface. *)

From Stdlib Require Import ZArith Ascii String DecimalString.
From stdpp Require Import base functions gmap strings list.

Local Open Scope string_scope.
Local Open Scope Z_scope.

(** ** Data model *)

(** The address of an [http.Response] object. *)
Abbreviation loc := nat.

(**
<<
const (
	ErrorUnsupported = iota
	ErrorFromString
	ErrorFromError
	ErrorFromStringer
)
>> *)
Definition ErrorUnsupported : Z := 0.
Definition ErrorFromString : Z := 1.
Definition ErrorFromError : Z := 2.
Definition ErrorFromStringer : Z := 3.

(** [type Error struct { Response *http.Response; Code int; Message string }] *)
Record Error : Type := mkError {
  Response : option loc;
  Code : Z;
  Message : string;
}.

(** [type APIErrorReason struct { Reason string; Field string }] *)
Record APIErrorReason : Type := mkReason {
  Reason : string;
  Field : string;
}.

(** [type APIError struct { Errors []APIErrorReason }] *)
Record APIError : Type := mkAPIError {
  Errors : list APIErrorReason;
}.

(** A non-nil value of Go's [error] interface. [PtrError p] has dynamic type
    [*Error] ([p] may be the nil pointer). [ValError msg str ws] is a value
    of any other type: [msg] is what its [Error()] returns, [str] what its
    [String()] returns when the type is also a [fmt.Stringer], and [ws] the
    non-nil errors its [Unwrap] returns (one for [Unwrap() error], several
    for [Unwrap() []error], none without the method). Types with an [As]
    method of their own are outside this model. *)
#[warnings="-register-all"]
Inductive error : Type :=
| PtrError (p : option Error)
| ValError (msg : string) (stringer : option string) (wrapped : list error).

(** A value of the empty interface, as [NewError]'s type switch tells them
    apart. [any_nil] is the nil interface; [any_Response l] a non-nil
    [*http.Response]; [any_value ty str] a value of a type [ty] that is none
    of the others and has no [Error()] method, [str] being what its
    [String()] returns when it has one. *)
Inductive any : Type :=
| any_nil
| any_error (e : error)
| any_Response (l : loc)
| any_string (s : string)
| any_value (type_name : string) (stringer : option string).

(** A result of a Go call that may panic. *)
Inductive outcome (A : Type) : Type :=
| Returns (a : A)
| Panics.
Arguments Returns {A} a.
Arguments Panics {A}.

(** ** The parts of Go's library the code uses *)

Module strings.
(** [strings.Join(elems, sep)] *)
Fixpoint Join (elems : list string) (sep : string) : string :=
  match elems with
  | [] => ""
  | [s] => s
  | s :: rest => s +:+ sep +:+ Join rest sep
  end.

(** [strings.Contains(s, substr)] as a proposition. *)
Definition Contains (s substr : string) : Prop :=
  exists pre post : string, s = pre +:+ substr +:+ post.
End strings.

Module io.
(** An [io.ReadCloser] value: the bytes it still delivers and how the
    stream ends after them, [None] for [io.EOF] and [Some e] when [Read]
    fails with [e]. *)
Record ReadCloser : Type := mkReader {
  unread : string;
  failure : option error;
}.

(** [io.ReadAll(r)]: what was read, the error ([nil] at [io.EOF]), and the
    reader as the call leaves it. *)
Definition ReadAll (r : ReadCloser) : (string * option error) * ReadCloser :=
  ((unread r, failure r), mkReader "" (failure r)).

(** [io.NopCloser(bytes.NewBuffer(b))] *)
Definition NopCloser_NewBuffer (b : string) : ReadCloser := mkReader b None.
End io.

Module http.
Definition StatusBadGateway : Z := 502.
Definition StatusNotFound : Z := 404.

(** [http.Header], a [map[string][]string]; [None] is the nil map. *)
Definition Header : Type := option (gmap string (list string)).

(** [h.Get(key)]: the first value stored under [key], or the empty string.
    Go first puts [key] in canonical form; the two keys the code asks for,
    [Accept] and [Content-Type], are canonical as written. *)
Definition Get (h : Header) (key : string) : string :=
  match h with
  | None => ""
  | Some m =>
      match m !! key with
      | Some (v :: _) => v
      | _ => ""
      end
  end.

(** [http.Request], of which the code reads the header only. *)
Record Request : Type := mkRequest {
  Request_Header : Header;
}.

(** [http.Response] *)
Record Response : Type := mkResponse {
  StatusCode : Z;
  Header_ : Header;
  Body : option io.ReadCloser;
  Request_ : option Request;
}.

(** [resp.Body = b] *)
Definition set_Body (b : option io.ReadCloser) (r : Response) : Response :=
  mkResponse (StatusCode r) (Header_ r) b (Request_ r).

(** [http.StatusText(code)] *)
Definition StatusText (code : Z) : string :=
  match code with
  | 100 => "Continue"
  | 101 => "Switching Protocols"
  | 102 => "Processing"
  | 103 => "Early Hints"
  | 200 => "OK"
  | 201 => "Created"
  | 202 => "Accepted"
  | 203 => "Non-Authoritative Information"
  | 204 => "No Content"
  | 205 => "Reset Content"
  | 206 => "Partial Content"
  | 207 => "Multi-Status"
  | 208 => "Already Reported"
  | 226 => "IM Used"
  | 300 => "Multiple Choices"
  | 301 => "Moved Permanently"
  | 302 => "Found"
  | 303 => "See Other"
  | 304 => "Not Modified"
  | 305 => "Use Proxy"
  | 307 => "Temporary Redirect"
  | 308 => "Permanent Redirect"
  | 400 => "Bad Request"
  | 401 => "Unauthorized"
  | 402 => "Payment Required"
  | 403 => "Forbidden"
  | 404 => "Not Found"
  | 405 => "Method Not Allowed"
  | 406 => "Not Acceptable"
  | 407 => "Proxy Authentication Required"
  | 408 => "Request Timeout"
  | 409 => "Conflict"
  | 410 => "Gone"
  | 411 => "Length Required"
  | 412 => "Precondition Failed"
  | 413 => "Request Entity Too Large"
  | 414 => "Request URI Too Long"
  | 415 => "Unsupported Media Type"
  | 416 => "Requested Range Not Satisfiable"
  | 417 => "Expectation Failed"
  | 418 => "I'm a teapot"
  | 421 => "Misdirected Request"
  | 422 => "Unprocessable Entity"
  | 423 => "Locked"
  | 424 => "Failed Dependency"
  | 425 => "Too Early"
  | 426 => "Upgrade Required"
  | 428 => "Precondition Required"
  | 429 => "Too Many Requests"
  | 431 => "Request Header Fields Too Large"
  | 451 => "Unavailable For Legal Reasons"
  | 500 => "Internal Server Error"
  | 501 => "Not Implemented"
  | 502 => "Bad Gateway"
  | 503 => "Service Unavailable"
  | 504 => "Gateway Timeout"
  | 505 => "HTTP Version Not Supported"
  | 506 => "Variant Also Negotiates"
  | 507 => "Insufficient Storage"
  | 508 => "Loop Detected"
  | 510 => "Not Extended"
  | 511 => "Network Authentication Required"
  | _ => ""
  end.
End http.

(** The store: the [http.Response] object behind each pointer. *)
Abbreviation store := (loc -> http.Response).

(** ** Formatting ([fmt]) *)

(** [n] copies of the character [0]. *)
Fixpoint zeros (n : nat) : string :=
  match n with
  | O => ""
  | S n' => String "0"%char (zeros n')
  end.

(** The decimal digits of a number that is not negative. *)
Definition digits (n : Z) : string :=
  NilZero.string_of_uint (N.to_uint (Z.to_N n)).

(** The verb [%03d]: at least three characters, padded with zeros after the
    sign. *)
Definition fmt_03d (n : Z) : string :=
  if n <? 0
  then "-" +:+ zeros (2 - String.length (digits (- n))) +:+ digits (- n)
  else zeros (3 - String.length (digits n)) +:+ digits n.

(**
<<
func (err Error) Error() string {
	return fmt.Sprintf("[%03d] %s", err.Code, err.Message)
}
>> *)
Definition Error_Error (err : Error) : string :=
  "[" +:+ fmt_03d (Code err) +:+ "] " +:+ Message err.

(** [func (err Error) StatusCode() int] *)
Definition Error_StatusCode (err : Error) : Z := Code err.

(** How [fmt] prints an error under [%v], [%s] or [%w]: what its [Error()]
    returns, and [<nil>] for a nil [*Error], whose method cannot run. *)
Definition fmt_error (e : error) : string :=
  match e with
  | PtrError None => "<nil>"
  | PtrError (Some err) => Error_Error err
  | ValError msg _ _ => msg
  end.

(** [fmt.Errorf(msg)] with no verb in [msg]. *)
Definition fmt_Errorf (msg : string) : error := ValError msg None [].

(** [fmt.Errorf(prefix + "%w", err)]: the new error wraps [err]; a nil [err]
    is printed as a bad verb and nothing is wrapped. *)
Definition fmt_Errorf_w (prefix : string) (err : option error) : error :=
  match err with
  | Some e => ValError (prefix +:+ fmt_error e) None [e]
  | None => ValError (prefix +:+ "%!w(<nil>)") None []
  end.

(** The line feed. *)
Definition LF : string := String "010"%char "".

(**
<<
fmt.Sprintf(
	"Unexpected Content-Type: Expected: %v, Received: %v\nResponse body: %s",
	expectedContentType, responseContentType, string(bodyBytes))
>> *)
Definition Sprintf_unexpected (expectedContentType responseContentType
    bodyBytes : string) : string :=
  "Unexpected Content-Type: Expected: " +:+ expectedContentType +:+
  ", Received: " +:+ responseContentType +:+ LF +:+
  "Response body: " +:+ bodyBytes.

Module errors.
(** [errors.As(err, &e)] for [var e *Error]: [Some p] when it returns true
    having set [e] to [p], [None] when it returns false. It walks [err] and
    what it wraps, depth first, and stops at the first value whose dynamic
    type is [*Error]. *)
Fixpoint As (err : error) : option (option Error) :=
  match err with
  | PtrError p => Some p
  | ValError _ _ ws =>
      (fix first (ws : list error) : option (option Error) :=
         match ws with
         | [] => None
         | w :: ws' =>
             match As w with
             | Some p => Some p
             | None => first ws'
             end
         end) ws
  end.
End errors.

(** ** The code of errors.go *)

(**
<<
func (r APIErrorReason) Error() string {
	if len(r.Field) == 0 {
		return r.Reason
	}
	return fmt.Sprintf("[%s] %s", r.Field, r.Reason)
}
>> *)
Definition APIErrorReason_Error (r : APIErrorReason) : string :=
  if (String.length (Field r) =? 0)%nat
  then Reason r
  else "[" +:+ Field r +:+ "] " +:+ Reason r.

(**
<<
func (e APIError) Error() string {
	x := []string{}
	for _, msg := range e.Errors {
		x = append(x, msg.Error())
	}
	return strings.Join(x, "; ")
}
>> *)
Definition APIError_Error (e : APIError) : string :=
  strings.Join (map APIErrorReason_Error (Errors e)) "; ".

(** [resp.StatusCode < 200 || resp.StatusCode >= 300], the test of a status
    outside the success range. *)
Definition not_2xx (code : Z) : bool := (code <? 200) || (code >=? 300).

Section Classifier.

(** [getAPIError(resp)], which returns a [*APIError] and a [bool], is
    defined outside errors.go. It is a parameter here: given the response
    object it answers the decoded body, [None] when the second result is
    false, and the body stream it leaves on the response, which it may have
    read. [coupleAPIErrors] calls it, and [NewError] calls it again on the
    same response. *)
Variable getAPIError :
  http.Response -> option APIError * option io.ReadCloser.

(** The call [getAPIError(resp)] through the pointer [l]. *)
Definition call_getAPIError (σ : store) (l : loc) : option APIError * store :=
  let '(apiError, body) := getAPIError (σ l) in
  (apiError, <[l := http.set_Body body (σ l)]> σ).

(**
<<
func NewError(err any) *Error {
	if err == nil {
		return nil
	}
	switch e := err.(type) {
	case *Error:
		return e
	case *http.Response:
		apiError, ok := getAPIError(e)
		if !ok {
			return &Error{Code: ErrorUnsupported, Message: "Unexpected HTTP Error Response, no error"}
		}
		return &Error{Code: e.StatusCode, Message: apiError.Error(), Response: e}
	case error:
		return &Error{Code: ErrorFromError, Message: e.Error()}
	case string:
		return &Error{Code: ErrorFromString, Message: e}
	case fmt.Stringer:
		return &Error{Code: ErrorFromStringer, Message: e.String()}
	default:
		return &Error{Code: ErrorUnsupported, Message: fmt.Sprintf("Unsupported type to linodego.NewError: %s", reflect.TypeOf(e))}
	}
}
>> *)
Definition NewError (σ : store) (err : any) : store * option Error :=
  match err with
  | any_nil => (σ, None)
  | any_error (PtrError e) => (σ, e)
  | any_Response e =>
      let '(apiError, σ') := call_getAPIError σ e in
      match apiError with
      | None =>
          (σ', Some {| Response := None; Code := ErrorUnsupported;
                       Message := "Unexpected HTTP Error Response, no error" |})
      | Some apiError =>
          (σ', Some {| Response := Some e; Code := http.StatusCode (σ' e);
                       Message := APIError_Error apiError |})
      end
  | any_error (ValError msg _ _) =>
      (σ, Some {| Response := None; Code := ErrorFromError; Message := msg |})
  | any_string e =>
      (σ, Some {| Response := None; Code := ErrorFromString; Message := e |})
  | any_value _ (Some rendering) =>
      (σ, Some {| Response := None; Code := ErrorFromStringer;
                  Message := rendering |})
  | any_value type_name None =>
      (σ, Some {| Response := None; Code := ErrorUnsupported;
                  Message := "Unsupported type to linodego.NewError: " +:+ type_name |})
  end.

(** [return nil, NewError(x)]: the [*Error], nil or not, becomes a non-nil
    [error]. *)
Definition return_NewError (σ : store) (x : any)
    : store * (option loc * option error) :=
  let '(σ', e) := NewError σ x in (σ', (None, Some (PtrError e))).

(** The content type the request asked for:
<<
expectedContentType := ""
if resp.Request != nil && resp.Request.Header != nil {
	expectedContentType = resp.Request.Header.Get("Accept")
}
>> *)
Definition expectedContentType (resp : http.Response) : string :=
  match http.Request_ resp with
  | Some req =>
      match http.Request_Header req with
      | Some _ => http.Get (http.Request_Header req) "Accept"
      | None => ""
      end
  | None => ""
  end.

(** [responseContentType := resp.Header.Get("Content-Type")] *)
Definition responseContentType (resp : http.Response) : string :=
  http.Get (http.Header_ resp) "Content-Type".

(** [func coupleAPIErrors(resp *http.Response, err error)], lines 50 to 110
    of errors.go, which returns a [*http.Response] and an [error]. The result is the store the call leaves
    and the pair it returns. *)
Definition coupleAPIErrors (σ : store) (resp : option loc) (err : option error)
    : store * (option loc * option error) :=
  match err with
  | Some e => return_NewError σ (any_error e)
  | None =>
  match resp with
  | None => return_NewError σ (any_error (fmt_Errorf "response is nil"))
  | Some l =>
    let r := σ l in
    if not_2xx (http.StatusCode r) then
      if (http.StatusCode r =? http.StatusBadGateway)
         && String.eqb (responseContentType r) "text/html"
      then
        (σ, (None, Some (PtrError (Some
               {| Response := Some l; Code := http.StatusBadGateway;
                  Message := http.StatusText http.StatusBadGateway |}))))
      else if negb (String.eqb (responseContentType r) (expectedContentType r))
      then
        match http.Body r with
        | None =>
            return_NewError σ (any_error (fmt_Errorf "response body is nil"))
        | Some body =>
            let '((bodyBytes, readErr), body') := io.ReadAll body in
            match readErr with
            | Some _ =>
                return_NewError (<[l := http.set_Body (Some body') r]> σ)
                  (any_error
                     (fmt_Errorf_w "failed to read response body: " readErr))
            | None =>
                (<[l := http.set_Body
                          (Some (io.NopCloser_NewBuffer bodyBytes)) r]> σ,
                 (None, Some (PtrError (Some
                    {| Response := None; Code := http.StatusCode r;
                       Message := Sprintf_unexpected (expectedContentType r)
                                    (responseContentType r) bodyBytes |}))))
            end
        end
      else
        let '(apiError, σ1) := call_getAPIError σ l in
        match apiError with
        | None =>
            return_NewError σ1
              (any_error (fmt_Errorf_w "failed to decode response body: " err))
        | Some apiError =>
            if (length (Errors apiError) =? 0)%nat
            then (σ1, (Some l, None))
            else return_NewError σ1 (any_Response l)
        end
    else (σ, (Some l, None))
  end
  end.

End Classifier.

(** The loop of [ErrHasStatus]:
<<
for _, c := range code {
	if ec == c {
		return true
	}
}
return false
>> *)
Fixpoint has_code (ec : Z) (code : list Z) : bool :=
  match code with
  | [] => false
  | c :: rest => if ec =? c then true else has_code ec rest
  end.

(**
<<
func ErrHasStatus(err error, code ...int) bool {
	if err == nil {
		return false
	}
	if len(code) == 0 {
		return false
	}
	var e *Error
	if !errors.As(err, &e) {
		return false
	}
	ec := e.StatusCode()
	for _, c := range code { ... }
	return false
}
>>
    [StatusCode] has a value receiver: called through a nil [*Error] it
    panics. *)
Definition ErrHasStatus (err : option error) (code : list Z) : outcome bool :=
  match err with
  | None => Returns false
  | Some err' =>
      if (length code =? 0)%nat then Returns false
      else
        match errors.As err' with
        | None => Returns false
        | Some None => Panics
        | Some (Some e) => Returns (has_code (Error_StatusCode e) code)
        end
  end.

(**
<<
func IsNotFound(err error) bool {
	return ErrHasStatus(err, http.StatusNotFound)
}
>> *)
Definition IsNotFound (err : option error) : outcome bool :=
  ErrHasStatus err [http.StatusNotFound].

(** ** [Error.Is] *)

Section ErrorIs.

(** Whether the type of an error that is not a [*Error] has a method
    [StatusCode() int], and what a call of it gives: [None] for a type
    without the method. *)
Variable foreign_StatusCode : error -> option (outcome Z).

(** The method [StatusCode() int] of an error value, when its type has one.
    A [*Error] has it, from the value receiver of [Error]; called through a
    nil pointer it panics. *)
Definition StatusCode_method (x : error) : option (outcome Z) :=
  match x with
  | PtrError (Some e) => Some (Returns (Error_StatusCode e))
  | PtrError None => Some Panics
  | ValError _ _ _ => foreign_StatusCode x
  end.

(** [errors.As(target, &x)] for [var x interface{ StatusCode() int }]: the
    first error of the chain, depth first, whose type has the method;
    the result is what [x.StatusCode()] then gives. *)
Fixpoint As_StatusCode (err : error) : option (outcome Z) :=
  match StatusCode_method err with
  | Some r => Some r
  | None =>
      match err with
      | PtrError _ => None
      | ValError _ _ ws =>
          (fix first (ws : list error) : option (outcome Z) :=
             match ws with
             | [] => None
             | w :: ws' =>
                 match As_StatusCode w with
                 | Some r => Some r
                 | None => first ws'
                 end
             end) ws
      end
  end.

(**
<<
func (err Error) Is(target error) bool {
	if x, ok := target.(interface{ StatusCode() int }); ok || errors.As(target, &x) {
		return err.StatusCode() == x.StatusCode()
	}
	return false
}
>> *)
Definition Error_Is (err : Error) (target : option error) : outcome bool :=
  match target with
  | None => Returns false
  | Some t =>
      let x := match StatusCode_method t with
               | Some r => Some r
               | None => As_StatusCode t
               end in
      match x with
      | Some (Returns c) => Returns (Error_StatusCode err =? c)
      | Some Panics => Panics
      | None => Returns false
      end
  end.

End ErrorIs.

(** The store [σ'] differs from [σ] at most by the body of the response
    that [resp] points to. *)
Definition only_body_of (resp : option loc) (σ σ' : store) : Prop :=
  (forall l : loc,
      http.StatusCode (σ' l) = http.StatusCode (σ l)
      /\ http.Header_ (σ' l) = http.Header_ (σ l)
      /\ http.Request_ (σ' l) = http.Request_ (σ l))
  /\ (forall l : loc, resp <> Some l -> σ' l = σ l).

(** The values [NewError] gives a sentinel code to: strings, errors other
    than a [*Error], and values of any other type but [*http.Response]. *)
Definition gets_sentinel (x : any) : Prop :=
  match x with
  | any_string _ | any_value _ _ | any_error (ValError _ _ _) => True
  | any_nil | any_error (PtrError _) | any_Response _ => False
  end.

(** The number that three decimal digits write, 0 when they are not three
    digits: what reads a code below 1000 back from its [%03d] form. *)
Definition read_3_digits (s : string) : Z :=
  match s with
  | String a (String b (String c "")) =>
      let d (x : ascii) : Z := Z.of_nat (nat_of_ascii x) - 48 in
      100 * d a + 10 * d b + d c
  | _ => 0
  end.

(** [x] occurs in the chain of [err]: it is [err] itself or occurs in the
    chain of an error that [err] wraps. *)
Inductive InChain (x : error) : error -> Prop :=
| InChain_here : InChain x x
| InChain_wrapped msg str ws w :
    In w ws -> InChain x w -> InChain x (ValError msg str ws).

(** ** Sample data *)

(** A stand-in for [getAPIError] in the examples: it reads the body, puts a
    fresh stream on the response and decodes three bodies. *)
Definition sample_getAPIError (r : http.Response)
    : option APIError * option io.ReadCloser :=
  match http.Body r with
  | None => (None, None)
  | Some b =>
      match io.failure b with
      | Some _ => (None, Some (snd (io.ReadAll b)))
      | None =>
          (if String.eqb (io.unread b) "one reason" then
             Some (mkAPIError [mkReason "Entity ID is required" "entity_ids"])
           else if String.eqb (io.unread b) "two reasons" then
             Some (mkAPIError [mkReason "Entity ID is required" "entity_ids";
                               mkReason "Too many requests" ""])
           else if String.eqb (io.unread b) "no reason" then
             Some (mkAPIError [])
           else None,
           Some (io.NopCloser_NewBuffer (io.unread b)))
      end
  end.

(** A stand-in that decodes once: it drains the body and leaves it drained. *)
Definition draining_getAPIError (r : http.Response)
    : option APIError * option io.ReadCloser :=
  match http.Body r with
  | None => (None, None)
  | Some b =>
      (if String.eqb (io.unread b) "one reason" then
         Some (mkAPIError [mkReason "Entity ID is required" "entity_ids"])
       else None,
       Some (snd (io.ReadAll b)))
  end.

(** A response with the given status, content type, body and [Accept]. *)
Definition sample_response (status : Z) (contentType body accept : string)
    : http.Response :=
  http.mkResponse status
    (Some {[ "Content-Type" := [contentType] ]})
    (Some (io.NopCloser_NewBuffer body))
    (Some (http.mkRequest (Some {[ "Accept" := [accept] ]}))).

(** The store in which every pointer designates [r]. *)
Definition sample_store (r : http.Response) : store := fun _ => r.

(** * Properties *)

(** ** Formatting and rendering *)

Example fmt_03d_404 : fmt_03d 404 = "404".
Proof. reflexivity. Qed.

Example fmt_03d_7 : fmt_03d 7 = "007".
Proof. reflexivity. Qed.

Example fmt_03d_negative : fmt_03d (-5) = "-05".
Proof. reflexivity. Qed.

Example Error_Error_not_found :
  Error_Error (mkError None 404 "Not found") = "[404] Not found".
Proof. reflexivity. Qed.

Example APIError_Error_two :
  APIError_Error (mkAPIError [mkReason "Entity ID is required" "entity_ids";
                              mkReason "Too many requests" ""])
  = "[entity_ids] Entity ID is required; Too many requests".
Proof. reflexivity. Qed.

Lemma not_2xx_true (code : Z) :
  not_2xx code = true <-> code < 200 \/ 300 <= code.
Proof. unfold not_2xx. rewrite orb_true_iff. lia. Qed.

Lemma not_2xx_false (code : Z) :
  not_2xx code = false <-> 200 <= code < 300.
Proof. unfold not_2xx. rewrite orb_false_iff. lia. Qed.

(** The gateway test of line 70 fails exactly when the response is not a 502
    with content type [text/html]. *)
Lemma gateway_test_false (r : http.Response) :
  ~ (http.StatusCode r = 502 /\ responseContentType r = "text/html") ->
  (http.StatusCode r =? http.StatusBadGateway)
  && String.eqb (responseContentType r) "text/html" = false.
Proof.
  intros H. apply andb_false_iff.
  destruct (Z.eqb_spec (http.StatusCode r) http.StatusBadGateway) as [Hs|Hs];
    [right|left; reflexivity].
  apply String.eqb_neq. intros Hc. apply H. split; assumption.
Qed.



Lemma append_cons (x : ascii) (a b : string) :
  String x a +:+ b = String x (a +:+ b).
Proof. reflexivity. Qed.

Lemma append_assoc (a b c : string) : (a +:+ b) +:+ c = a +:+ b +:+ c.
Proof.
  induction a as [|x a IH]; [reflexivity|].
  rewrite !append_cons, IH. reflexivity.
Qed.

Lemma append_empty_r (a : string) : a +:+ "" = a.
Proof.
  induction a as [|x a IH]; [reflexivity|].
  rewrite append_cons, IH. reflexivity.
Qed.

(** The diagnostic of a content-type mismatch holds both content types and
    the body as they are. *)
Lemma Sprintf_unexpected_contains (expected received body : string) :
  strings.Contains (Sprintf_unexpected expected received body) expected /\
  strings.Contains (Sprintf_unexpected expected received body) received /\
  strings.Contains (Sprintf_unexpected expected received body) body.
Proof.
  unfold strings.Contains, Sprintf_unexpected. repeat split.
  - exists "Unexpected Content-Type: Expected: ",
      (", Received: " +:+ received +:+ LF +:+ "Response body: " +:+ body).
    reflexivity.
  - exists ("Unexpected Content-Type: Expected: " +:+ expected +:+ ", Received: "),
      (LF +:+ "Response body: " +:+ body).
    rewrite !append_assoc. reflexivity.
  - exists ("Unexpected Content-Type: Expected: " +:+ expected +:+
            ", Received: " +:+ received +:+ LF +:+ "Response body: "), "".
    rewrite append_empty_r, !append_assoc. reflexivity.
Qed.

(** The diagnostic starts with a capital U, which tells it from the messages
    of the other errors of [coupleAPIErrors]. *)
Lemma Sprintf_unexpected_head (expected received body : string) :
  exists rest, Sprintf_unexpected expected received body = String "U"%char rest.
Proof. unfold Sprintf_unexpected. eexists. reflexivity. Qed.

Section Properties.

Variable getAPIError :
  http.Response -> option APIError * option io.ReadCloser.

(** [return nil, NewError(err)] for an error that is not a [*Error]. *)
Lemma return_NewError_ValError (σ : store) (msg : string)
    (str : option string) (ws : list error) :
  return_NewError getAPIError σ (any_error (ValError msg str ws))
  = (σ, (None, Some (PtrError (Some
       {| Response := None; Code := ErrorFromError; Message := msg |})))).
Proof. reflexivity. Qed.

(** What [coupleAPIErrors] does with a response outside the success range
    that is not the gateway page, when the content types agree: lines 96
    to 106. *)
Lemma coupleAPIErrors_content_type_agrees (σ : store) (l : loc) :
  http.StatusCode (σ l) < 200 \/ 300 <= http.StatusCode (σ l) ->
  ~ (http.StatusCode (σ l) = 502 /\ responseContentType (σ l) = "text/html") ->
  responseContentType (σ l) = expectedContentType (σ l) ->
  coupleAPIErrors getAPIError σ (Some l) None
  = let '(apiError, σ1) := call_getAPIError getAPIError σ l in
    match apiError with
    | None =>
        return_NewError getAPIError σ1
          (any_error (fmt_Errorf_w "failed to decode response body: " None))
    | Some apiError =>
        if (length (Errors apiError) =? 0)%nat
        then (σ1, (Some l, None))
        else return_NewError getAPIError σ1 (any_Response l)
    end.
Proof.
  intros Hs Hg Hc. unfold coupleAPIErrors.
  apply not_2xx_true in Hs. rewrite Hs.
  rewrite (gateway_test_false _ Hg).
  apply String.eqb_eq in Hc. rewrite Hc. reflexivity.
Qed.

(** The same when the content types differ: lines 75 to 93. *)
Lemma coupleAPIErrors_content_type_differs (σ : store) (l : loc) :
  http.StatusCode (σ l) < 200 \/ 300 <= http.StatusCode (σ l) ->
  ~ (http.StatusCode (σ l) = 502 /\ responseContentType (σ l) = "text/html") ->
  responseContentType (σ l) <> expectedContentType (σ l) ->
  coupleAPIErrors getAPIError σ (Some l) None
  = match http.Body (σ l) with
    | None =>
        return_NewError getAPIError σ
          (any_error (fmt_Errorf "response body is nil"))
    | Some body =>
        match io.failure body with
        | Some readErr =>
            return_NewError getAPIError
              (<[l := http.set_Body (Some (io.mkReader "" (Some readErr))) (σ l)]> σ)
              (any_error
                 (fmt_Errorf_w "failed to read response body: " (Some readErr)))
        | None =>
            (<[l := http.set_Body
                      (Some (io.NopCloser_NewBuffer (io.unread body))) (σ l)]> σ,
             (None, Some (PtrError (Some
                {| Response := None; Code := http.StatusCode (σ l);
                   Message := Sprintf_unexpected (expectedContentType (σ l))
                                (responseContentType (σ l)) (io.unread body) |}))))
        end
    end.
Proof.
  intros Hs Hg Hc. unfold coupleAPIErrors.
  apply not_2xx_true in Hs. rewrite Hs.
  rewrite (gateway_test_false _ Hg).
  apply String.eqb_neq in Hc. rewrite Hc. simpl.
  destruct (http.Body (σ l)) as [body|]; [|reflexivity].
  unfold io.ReadAll. destruct (io.failure body); reflexivity.
Qed.



(** C3. [NewError] tells its argument's dynamic type in the order nil,
    [*Error], [*http.Response], error, string, stringer, anything else:
    nil gives nil; a [*Error] is returned as it is and an HTTP response is
    decoded, before the error case is tried; a string [s] gives Code 1 and
    Message [s]; any other error value gives Code 2 and its description,
    also when it is a stringer too; a value that is only a stringer gives
    Code 3 and its rendering; any other value gives Code 0 and a Message
    that contains the name of its type. *)
Theorem C3_NewError_dispatch (σ : store) :
  NewError getAPIError σ any_nil = (σ, None)
  /\ (forall p : option Error,
        NewError getAPIError σ (any_error (PtrError p)) = (σ, p))
  /\ (forall l : loc,
        snd (NewError getAPIError σ (any_Response l))
        = match fst (getAPIError (σ l)) with
          | Some apiError =>
              Some {| Response := Some l; Code := http.StatusCode (σ l);
                      Message := APIError_Error apiError |}
          | None =>
              Some {| Response := None; Code := 0;
                      Message := "Unexpected HTTP Error Response, no error" |}
          end)
  /\ (forall s : string,
        NewError getAPIError σ (any_string s)
        = (σ, Some {| Response := None; Code := 1; Message := s |}))
  /\ (forall (msg : string) (str : option string) (ws : list error),
        NewError getAPIError σ (any_error (ValError msg str ws))
        = (σ, Some {| Response := None; Code := 2; Message := msg |}))
  /\ (forall (msg rendering : string) (ws : list error),
        NewError getAPIError σ (any_error (ValError msg (Some rendering) ws))
        = (σ, Some {| Response := None; Code := 2; Message := msg |}))
  /\ (forall ty rendering : string,
        NewError getAPIError σ (any_value ty (Some rendering))
        = (σ, Some {| Response := None; Code := 3; Message := rendering |}))
  /\ (forall ty : string,
        exists m : string,
          NewError getAPIError σ (any_value ty None)
          = (σ, Some {| Response := None; Code := 0; Message := m |})
          /\ strings.Contains m ty).
Proof.
  repeat split; try reflexivity.
  - intros l. unfold NewError, call_getAPIError.
    destruct (getAPIError (σ l)) as [[apiError|] body]; cbn [fst snd];
      [rewrite fn_lookup_insert|]; reflexivity.
  - intros ty. eexists. split; [reflexivity|].
    exists "Unsupported type to linodego.NewError: ", "".
    rewrite append_empty_r. reflexivity.
Qed.

(** C4. A response outside [200,300) that is not the 502 [text/html]
    gateway page and whose Content-Type differs from the Accept of its
    request (the empty string when the request or its header is nil) is
    classified as the error whose Code is the status code and whose Message
    holds the expected content type, the received one and the body as read.
    When the body is nil, or reading it fails, the error is instead one
    built from an internal error, with Code 2, and differs from every
    mismatch error. *)
Theorem C4_content_type_mismatch (σ : store) (l : loc) :
  http.StatusCode (σ l) < 200 \/ 300 <= http.StatusCode (σ l) ->
  ~ (http.StatusCode (σ l) = 502 /\ responseContentType (σ l) = "text/html") ->
  responseContentType (σ l) <> expectedContentType (σ l) ->
  let mismatch (bodyBytes : string) : option loc * option error :=
    (None, Some (PtrError (Some
       {| Response := None; Code := http.StatusCode (σ l);
          Message := Sprintf_unexpected (expectedContentType (σ l))
                       (responseContentType (σ l)) bodyBytes |}))) in
  expectedContentType (σ l)
  = match http.Request_ (σ l) with
    | Some req => http.Get (http.Request_Header req) "Accept"
    | None => ""
    end
  /\ (forall body : io.ReadCloser,
        http.Body (σ l) = Some body -> io.failure body = None ->
        snd (coupleAPIErrors getAPIError σ (Some l) None)
        = mismatch (io.unread body))
  /\ (forall bodyBytes : string,
        let msg := Sprintf_unexpected (expectedContentType (σ l))
                     (responseContentType (σ l)) bodyBytes in
        strings.Contains msg (expectedContentType (σ l)) /\
        strings.Contains msg (responseContentType (σ l)) /\
        strings.Contains msg bodyBytes)
  /\ (http.Body (σ l) = None ->
        snd (coupleAPIErrors getAPIError σ (Some l) None)
        = (None, Some (PtrError (Some
             {| Response := None; Code := 2;
                Message := "response body is nil" |})))
        /\ forall bodyBytes : string,
             snd (coupleAPIErrors getAPIError σ (Some l) None)
             <> mismatch bodyBytes)
  /\ (forall (body : io.ReadCloser) (readErr : error),
        http.Body (σ l) = Some body -> io.failure body = Some readErr ->
        snd (coupleAPIErrors getAPIError σ (Some l) None)
        = (None, Some (PtrError (Some
             {| Response := None; Code := 2;
                Message := "failed to read response body: "
                           +:+ fmt_error readErr |})))
        /\ forall bodyBytes : string,
             snd (coupleAPIErrors getAPIError σ (Some l) None)
             <> mismatch bodyBytes).
Proof.
  intros Hs Hg Hc mismatch.
  pose proof (coupleAPIErrors_content_type_differs σ l Hs Hg Hc) as Hrun.
  split; [|split; [|split; [|split]]].
  - unfold expectedContentType.
    destruct (http.Request_ (σ l)) as [req|]; [|reflexivity].
    destruct (http.Request_Header req); reflexivity.
  - intros body Hb Hf. rewrite Hrun, Hb, Hf. reflexivity.
  - intros bodyBytes. apply Sprintf_unexpected_contains.
  - intros Hb. rewrite Hrun, Hb. unfold fmt_Errorf.
    rewrite return_NewError_ValError. split; [reflexivity|].
    intros bodyBytes Heq. subst mismatch. cbn [snd] in Heq.
    destruct (Sprintf_unexpected_head (expectedContentType (σ l))
                (responseContentType (σ l)) bodyBytes) as [rest Hrest].
    rewrite Hrest in Heq. discriminate Heq.
  - intros body readErr Hb Hf. rewrite Hrun, Hb, Hf. unfold fmt_Errorf_w.
    rewrite return_NewError_ValError. split; [reflexivity|].
    intros bodyBytes Heq. subst mismatch. cbn [snd] in Heq.
    destruct (Sprintf_unexpected_head (expectedContentType (σ l))
                (responseContentType (σ l)) bodyBytes) as [rest Hrest].
    rewrite Hrest in Heq. discriminate Heq.
Qed.

(** C5. When [coupleAPIErrors] reads the body for the mismatch diagnostic,
    it leaves a fresh stream on the response object: reading the body the
    response has after the call gives the bytes the original body held,
    and no error. Nothing else of the response, and no other object, is
    changed. *)
Theorem C5_body_is_restored (σ : store) (l : loc) (body : io.ReadCloser) :
  http.StatusCode (σ l) < 200 \/ 300 <= http.StatusCode (σ l) ->
  ~ (http.StatusCode (σ l) = 502 /\ responseContentType (σ l) = "text/html") ->
  responseContentType (σ l) <> expectedContentType (σ l) ->
  http.Body (σ l) = Some body ->
  io.failure body = None ->
  let σ' := fst (coupleAPIErrors getAPIError σ (Some l) None) in
  (exists fresh : io.ReadCloser,
      σ' l = http.set_Body (Some fresh) (σ l)
      /\ fst (io.ReadAll fresh) = (io.unread body, None)
      /\ fst (io.ReadAll fresh) = fst (io.ReadAll body))
  /\ (forall l' : loc, l' <> l -> σ' l' = σ l').
Proof.
  intros Hs Hg Hc Hb Hf σ'. subst σ'.
  rewrite (coupleAPIErrors_content_type_differs σ l Hs Hg Hc), Hb, Hf.
  cbn [fst]. split.
  - exists (io.NopCloser_NewBuffer (io.unread body)).
    rewrite fn_lookup_insert. unfold io.ReadAll. rewrite Hf.
    repeat split; reflexivity.
  - intros l' Hl. apply fn_lookup_insert_ne. congruence.
Qed.

(** C8. Normalizing the result of a normalization changes nothing: when
    [NewError] gives an [Error] for a non-nil value, [NewError] of that
    result gives it again and leaves the store alone. In particular a
    [*Error] is returned as it is. *)
Theorem C8_NewError_idempotent (σ σ' : store) (x : any) (e : Error) :
  x <> any_nil ->
  NewError getAPIError σ x = (σ', Some e) ->
  NewError getAPIError σ' (any_error (PtrError (snd (NewError getAPIError σ x))))
  = (σ', snd (NewError getAPIError σ x))
  /\ forall (τ : store) (p : option Error),
       NewError getAPIError τ (any_error (PtrError p)) = (τ, p).
Proof.
  intros _ H. rewrite H. split; reflexivity.
Qed.

(** C7. A response whose status code is in [200,300), with no transport
    error, is returned as it is with a nil error, whatever its body and
    headers; the response object is not touched. *)
Theorem C7_success_is_passed_through (σ : store) (l : loc) :
  200 <= http.StatusCode (σ l) < 300 ->
  coupleAPIErrors getAPIError σ (Some l) None = (σ, (Some l, None)).
Proof.
  intros H. apply not_2xx_false in H.
  unfold coupleAPIErrors. rewrite H. reflexivity.
Qed.

(** C6. A 502 response whose Content-Type is [text/html] is classified as
    the error with Code 502 and Message [Bad Gateway]; the store is left as
    it was (the body is not read) and the result is the same for every
    [getAPIError] (the body is not decoded). *)
Theorem C6_bad_gateway_html (σ : store) (l : loc) :
  http.StatusCode (σ l) = 502 ->
  responseContentType (σ l) = "text/html" ->
  coupleAPIErrors getAPIError σ (Some l) None
  = (σ, (None, Some (PtrError (Some
       {| Response := Some l; Code := 502; Message := "Bad Gateway" |})))).
Proof.
  intros Hs Hc. unfold coupleAPIErrors. rewrite Hs, Hc. reflexivity.
Qed.

(** C10. Whatever the response and the transport error, exactly one of the
    two results is nil: either the response is nil and the error is not, or
    the response is not nil and the error is. *)
Theorem C10_exactly_one_result (σ : store) (resp : option loc)
    (err : option error) :
  let out := snd (coupleAPIErrors getAPIError σ resp err) in
  (fst out = None /\ snd out <> None) \/ (fst out <> None /\ snd out = None).
Proof.
  unfold coupleAPIErrors, return_NewError, call_getAPIError.
  cbv zeta.
  repeat case_match; simplify_eq/=; (left + right); split; congruence.
Qed.

End Properties.

(** ** The status matcher *)

(** Induction on an error and, through the list, on the errors it wraps. *)
Lemma error_nested_ind (P : error -> Prop) :
  (forall p, P (PtrError p)) ->
  (forall msg str ws, Forall P ws -> P (ValError msg str ws)) ->
  forall e, P e.
Proof.
  intros Hptr Hval. fix IH 1. intros [p|msg str ws].
  - apply Hptr.
  - apply Hval. induction ws as [|w ws IHws]; constructor; [apply IH|exact IHws].
Qed.

(** [errors.As] fails on an error that wraps others exactly when it fails on
    each of them. *)
Lemma As_ValError_None (msg : string) (str : option string) (ws : list error) :
  errors.As (ValError msg str ws) = None
  <-> Forall (fun w => errors.As w = None) ws.
Proof.
  induction ws as [|w ws IH]; cbn.
  - split; [constructor|reflexivity].
  - destruct (errors.As w) as [p|] eqn:Hw.
    + split; [discriminate|]. intros H. inversion H; congruence.
    + cbn in IH. rewrite IH. split.
      * intros H. constructor; assumption.
      * intros H. inversion H; assumption.
Qed.

(** When it succeeds, it does on one of them. *)
Lemma As_ValError_Some (msg : string) (str : option string) (ws : list error)
    (p : option Error) :
  errors.As (ValError msg str ws) = Some p ->
  exists w, In w ws /\ errors.As w = Some p.
Proof.
  induction ws as [|w ws IH]; cbn; [discriminate|].
  destruct (errors.As w) as [q|] eqn:Hw.
  - intros [= <-]. exists w. split; [left; reflexivity|exact Hw].
  - intros H. destruct (IH H) as (w' & Hin & Hw').
    exists w'. split; [right; exact Hin|exact Hw'].
Qed.

(** What [errors.As] finds is a [*Error] of the chain. *)
Lemma As_Some_InChain (err : error) (p : option Error) :
  errors.As err = Some p -> InChain (PtrError p) err.
Proof.
  revert p. induction err as [q|msg str ws IH] using error_nested_ind; intros p H.
  - cbn in H. injection H as <-. constructor.
  - apply As_ValError_Some in H as (w & Hin & Hw).
    rewrite Forall_forall in IH.
    eapply InChain_wrapped; [exact Hin|]. apply IH; [|exact Hw].
    apply list_elem_of_In. exact Hin.
Qed.

(** [errors.As] fails exactly on the errors whose chain holds no [*Error]. *)
Lemma As_None_iff (err : error) :
  errors.As err = None <-> forall p, ~ InChain (PtrError p) err.
Proof.
  induction err as [q|msg str ws IH] using error_nested_ind.
  - split; [discriminate|]. intros H. exfalso. apply (H q). constructor.
  - rewrite As_ValError_None. rewrite Forall_forall in IH. split.
    + intros HF p Hin. inversion Hin as [|? ? ? w Hw Hc]; subst.
      rewrite Forall_forall in HF.
      apply list_elem_of_In in Hw.
      apply (proj1 (IH w Hw) (HF w Hw) p). exact Hc.
    + intros H. apply Forall_forall. intros w Hw. apply (IH w Hw).
      intros p Hc. apply (H p).
      eapply InChain_wrapped; [|exact Hc]. apply list_elem_of_In. exact Hw.
Qed.

Lemma has_code_true (ec : Z) (code : list Z) :
  has_code ec code = true <-> In ec code.
Proof.
  induction code as [|c rest IH]; cbn; [split; [discriminate|tauto]|].
  destruct (Z.eqb_spec ec c) as [->|Hne].
  - split; [left; reflexivity|reflexivity].
  - rewrite IH. split; [right; assumption|]. intros [H|H]; [congruence|exact H].
Qed.

(** C9, amended. [ErrHasStatus] returns false when the error is nil, when no
    code is given, and when the chain of the error holds no [*Error]. When
    [errors.As] finds a [*Error] that is not a nil pointer, and a code is
    given, it returns, and returns true exactly when the Code of that [Error]
    is one of the codes. [IsNotFound] is [ErrHasStatus] with the code 404. *)
Theorem C9_ErrHasStatus :
  (forall code : list Z, ErrHasStatus None code = Returns false)
  /\ (forall err : option error, ErrHasStatus err [] = Returns false)
  /\ (forall (err : error) (code : list Z),
        (forall p, ~ InChain (PtrError p) err) ->
        ErrHasStatus (Some err) code = Returns false)
  /\ (forall (err : error) (e : Error) (code : list Z),
        errors.As err = Some (Some e) -> code <> [] ->
        InChain (PtrError (Some e)) err
        /\ exists b : bool,
             ErrHasStatus (Some err) code = Returns b
             /\ (b = true <-> In (Code e) code))
  /\ (forall err : option error, IsNotFound err = ErrHasStatus err [404]).
Proof.
  split; [|split; [|split; [|split]]].
  - reflexivity.
  - intros [err|]; reflexivity.
  - intros err code H. apply As_None_iff in H.
    unfold ErrHasStatus. rewrite H. destruct (length code =? 0)%nat; reflexivity.
  - intros err e code H Hne. split; [apply As_Some_InChain; exact H|].
    exists (has_code (Code e) code). split; [|apply has_code_true].
    unfold ErrHasStatus. rewrite H.
    destruct code; [congruence|reflexivity].
  - reflexivity.
Qed.

(** ** The theorems at sample inputs *)

(** The side conditions of the theorems at a sample response: the status is
    outside the success range, the response is not the gateway page, the
    content types agree or differ. *)
Ltac sample_side :=
  first
    [ right; cbn; lia
    | intros [? _]; discriminate
    | vm_compute; first [reflexivity | discriminate] ].

(** The scenario [Normalize("disk full")]. *)
Example NewError_disk_full (σ : store) :
  NewError sample_getAPIError σ (any_string "disk full")
  = (σ, Some {| Response := None; Code := 1; Message := "disk full" |}).
Proof. reflexivity. Qed.

(** The scenario of a 400 whose body holds one reason. *)
Example coupleAPIErrors_entity_ids :
  snd (coupleAPIErrors sample_getAPIError
         (sample_store (sample_response 400 "application/json" "one reason"
                          "application/json")) (Some 0%nat) None)
  = (None, Some (PtrError (Some
       {| Response := Some 0%nat; Code := 400;
          Message := "[entity_ids] Entity ID is required" |}))).
Proof. vm_compute. reflexivity. Qed.

(** With a [getAPIError] that leaves the body drained, the second decoding,
    in [NewError], fails: the reasons are lost. *)
Example coupleAPIErrors_drained_body :
  snd (coupleAPIErrors draining_getAPIError
         (sample_store (sample_response 400 "application/json" "one reason"
                          "application/json")) (Some 0%nat) None)
  = (None, Some (PtrError (Some
       {| Response := None; Code := 0;
          Message := "Unexpected HTTP Error Response, no error" |}))).
Proof. vm_compute. reflexivity. Qed.

(** A body that does not decode: the message of line 99 formats the nil
    transport error. *)
Example coupleAPIErrors_undecodable :
  snd (coupleAPIErrors sample_getAPIError
         (sample_store (sample_response 500 "application/json" "<html>"
                          "application/json")) (Some 0%nat) None)
  = (None, Some (PtrError (Some
       {| Response := None; Code := 2;
          Message := "failed to decode response body: %!w(<nil>)" |}))).
Proof. vm_compute. reflexivity. Qed.

(** A transport error wins over the response. *)
Example coupleAPIErrors_transport_error (σ : store) :
  coupleAPIErrors sample_getAPIError σ (Some 0%nat)
    (Some (fmt_Errorf "connection refused"))
  = (σ, (None, Some (PtrError (Some
       {| Response := None; Code := 2; Message := "connection refused" |})))).
Proof. reflexivity. Qed.

(** A nil response without a transport error. *)
Example coupleAPIErrors_nil_response (σ : store) :
  coupleAPIErrors sample_getAPIError σ None None
  = (σ, (None, Some (PtrError (Some
       {| Response := None; Code := 2; Message := "response is nil" |})))).
Proof. reflexivity. Qed.

(** A nil [*Error] given as the transport error comes back as it is: the
    error returned is not nil, the pointer in it is. *)
Example coupleAPIErrors_nil_pointer (σ : store) :
  coupleAPIErrors sample_getAPIError σ None (Some (PtrError None))
  = (σ, (None, Some (PtrError None))).
Proof. reflexivity. Qed.





Lemma C3_witness :
  snd (NewError sample_getAPIError (sample_store (sample_response 200 "" "" ""))
         (any_error (ValError "timeout" (Some "a stringer as well") [])))
  = Some {| Response := None; Code := 2; Message := "timeout" |}.
Proof.
  pose proof (C3_NewError_dispatch sample_getAPIError
                (sample_store (sample_response 200 "" "" ""))) as H.
  destruct H as (_ & _ & _ & _ & _ & H & _).
  rewrite (H "timeout" "a stringer as well" []). reflexivity.
Defined.

Lemma C4_witness :
  let r := sample_response 503 "text/plain" "server overloaded"
             "application/json" in
  snd (coupleAPIErrors sample_getAPIError (sample_store r) (Some 0%nat) None)
  = (None, Some (PtrError (Some
       {| Response := None; Code := 503;
          Message := "Unexpected Content-Type: Expected: application/json, "
                     +:+ "Received: text/plain" +:+ LF
                     +:+ "Response body: server overloaded" |}))).
Proof.
  cbv zeta.
  pose proof (C4_content_type_mismatch sample_getAPIError
    (sample_store (sample_response 503 "text/plain" "server overloaded"
                     "application/json")) 0%nat) as H.
  cbv zeta in H. destruct H as (_ & H & _).
  - sample_side.
  - sample_side.
  - sample_side.
  - rewrite (H (io.NopCloser_NewBuffer "server overloaded") eq_refl eq_refl).
    vm_compute. reflexivity.
Defined.

(** The same mismatch with a body that fails after a few bytes: the error is
    the internal one, and the body is left drained. *)
Example coupleAPIErrors_unreadable_body :
  let r := http.mkResponse 503 (Some {[ "Content-Type" := ["text/plain"] ]})
             (Some (io.mkReader "serv" (Some (fmt_Errorf "unexpected EOF"))))
             None in
  coupleAPIErrors sample_getAPIError (sample_store r) (Some 0%nat) None
  = (<[0%nat := http.set_Body
                  (Some (io.mkReader "" (Some (fmt_Errorf "unexpected EOF")))) r]>
       (sample_store r),
     (None, Some (PtrError (Some
        {| Response := None; Code := 2;
           Message := "failed to read response body: unexpected EOF" |})))).
Proof.
  cbv zeta. rewrite coupleAPIErrors_content_type_differs.
  - reflexivity.
  - sample_side.
  - sample_side.
  - sample_side.
Qed.

Lemma C5_witness :
  let r := sample_response 503 "text/plain" "server overloaded"
             "application/json" in
  let σ' := fst (coupleAPIErrors sample_getAPIError (sample_store r)
                   (Some 0%nat) None) in
  exists fresh : io.ReadCloser,
    σ' 0%nat = http.set_Body (Some fresh) r
    /\ fst (io.ReadAll fresh) = ("server overloaded", None).
Proof.
  cbv zeta.
  pose proof (C5_body_is_restored sample_getAPIError
    (sample_store (sample_response 503 "text/plain" "server overloaded"
                     "application/json")) 0%nat
    (io.NopCloser_NewBuffer "server overloaded")) as H.
  cbv zeta in H. destruct H as [(fresh & H1 & H2 & _) _].
  - sample_side.
  - sample_side.
  - sample_side.
  - reflexivity.
  - reflexivity.
  - exists fresh. split; [exact H1|exact H2].
Defined.

Lemma C6_witness :
  coupleAPIErrors sample_getAPIError
    (sample_store (sample_response 502 "text/html" "<html>" "application/json"))
    (Some 0%nat) None
  = (sample_store (sample_response 502 "text/html" "<html>" "application/json"),
     (None, Some (PtrError (Some
        {| Response := Some 0%nat; Code := 502; Message := "Bad Gateway" |})))).
Proof.
  apply C6_bad_gateway_html.
  - reflexivity.
  - vm_compute. reflexivity.
Defined.

Lemma C7_witness :
  coupleAPIErrors sample_getAPIError
    (sample_store (sample_response 204 "text/plain" "" "application/json"))
    (Some 0%nat) None
  = (sample_store (sample_response 204 "text/plain" "" "application/json"),
     (Some 0%nat, None)).
Proof.
  apply C7_success_is_passed_through. cbn. lia.
Defined.

Lemma C8_witness :
  let σ := sample_store (sample_response 400 "application/json" "one reason"
                           "application/json") in
  let once := NewError sample_getAPIError σ (any_Response 0%nat) in
  snd once = Some {| Response := Some 0%nat; Code := 400;
                     Message := "[entity_ids] Entity ID is required" |}
  /\ NewError sample_getAPIError (fst once) (any_error (PtrError (snd once)))
     = once.
Proof.
  cbv zeta. split; [vm_compute; reflexivity|].
  pose proof (C8_NewError_idempotent sample_getAPIError
    (sample_store (sample_response 400 "application/json" "one reason"
                     "application/json"))
    (fst (NewError sample_getAPIError
            (sample_store (sample_response 400 "application/json" "one reason"
                             "application/json")) (any_Response 0%nat)))
    (any_Response 0%nat)
    {| Response := Some 0%nat; Code := 400;
       Message := "[entity_ids] Entity ID is required" |}) as H.
  destruct H as [H _].
  - discriminate.
  - vm_compute. reflexivity.
  - rewrite H. vm_compute. reflexivity.
Defined.

Lemma C9_witness :
  let err := fmt_Errorf_w "request failed: "
               (Some (PtrError (Some (mkError None 404 "Not found")))) in
  (exists b : bool,
      ErrHasStatus (Some err) [500; 404] = Returns b
      /\ (b = true <-> In 404 [500; 404]))
  /\ ErrHasStatus (Some (fmt_Errorf "connection refused")) [404] = Returns false.
Proof.
  cbv zeta. destruct C9_ErrHasStatus as (_ & _ & Hnone & Hsome & _). split.
  - apply (Hsome _ (mkError None 404 "Not found") [500; 404]);
      [reflexivity|discriminate].
  - apply Hnone. intros p H. inversion H as [|? ? ? w Hw _]. destruct Hw.
Defined.

(** C9 as it is written fails on a nil [*Error]: its chain holds no [Error],
    yet [ErrHasStatus] does not return false, it panics on
    [e.StatusCode()]. *)
Lemma C9_counterexample :
  (forall e : Error, ~ InChain (PtrError (Some e)) (PtrError None))
  /\ errors.As (PtrError None) = Some None
  /\ ErrHasStatus (Some (PtrError None)) [404] = Panics
  /\ ErrHasStatus (Some (PtrError None)) [404] <> Returns false.
Proof.
  split; [|split; [reflexivity|split; [reflexivity|discriminate]]].
  intros e H. inversion H.
Qed.

(** * Further properties of errors.go *)

(** ** What a classification changes and what it returns *)

Lemma only_body_of_refl (resp : option loc) (σ : store) : only_body_of resp σ σ.
Proof. split; intros; repeat split; reflexivity. Qed.

Lemma only_body_of_set_Body (σ : store) (l : loc) (b : option io.ReadCloser) :
  only_body_of (Some l) σ (<[l := http.set_Body b (σ l)]> σ).
Proof.
  split.
  - intros l'. destruct (decide (l = l')) as [<-|Hne].
    + rewrite fn_lookup_insert. repeat split; reflexivity.
    + rewrite fn_lookup_insert_ne by exact Hne. repeat split; reflexivity.
  - intros l' Hne. apply fn_lookup_insert_ne. congruence.
Qed.

Lemma only_body_of_trans (resp : option loc) (σ1 σ2 σ3 : store) :
  only_body_of resp σ1 σ2 -> only_body_of resp σ2 σ3 -> only_body_of resp σ1 σ3.
Proof.
  intros [H1 H1'] [H2 H2']. split.
  - intros l. destruct (H1 l) as (? & ? & ?), (H2 l) as (? & ? & ?).
    repeat split; congruence.
  - intros l Hne. rewrite H2', H1' by exact Hne. reflexivity.
Qed.

Section MoreProperties.

Variable getAPIError :
  http.Response -> option APIError * option io.ReadCloser.

Lemma call_getAPIError_frame (σ : store) (l : loc) :
  only_body_of (Some l) σ (snd (call_getAPIError getAPIError σ l)).
Proof.
  unfold call_getAPIError. destruct (getAPIError (σ l)) as [a b]. cbn [snd].
  apply only_body_of_set_Body.
Qed.

(** [NewError] writes to the store only when it is given a response, and
    then only the body of that response. *)
Lemma NewError_frame (σ : store) (x : any) :
  only_body_of (match x with any_Response l => Some l | _ => None end)
    σ (fst (NewError getAPIError σ x)).
Proof.
  destruct x as [|[p|msg str ws]|l|s|ty [r|]]; cbn [NewError fst];
    try apply only_body_of_refl.
  pose proof (call_getAPIError_frame σ l) as H.
  destruct (call_getAPIError getAPIError σ l) as [[a|] σ']; exact H.
Qed.

Lemma return_NewError_frame (σ : store) (x : any) (resp : option loc) :
  (forall l, x = any_Response l -> resp = Some l) ->
  only_body_of resp σ (fst (return_NewError getAPIError σ x)).
Proof.
  intros Hx. unfold return_NewError.
  pose proof (NewError_frame σ x) as H.
  destruct (NewError getAPIError σ x) as [σ' e]. cbn [fst] in *.
  destruct x as [|e0|l|s|ty r]; try (destruct H as [H1 H2]; split;
    [exact H1|intros l' _; apply H2; discriminate]).
  rewrite (Hx l eq_refl). exact H.
Qed.

(** Whatever it is given, [coupleAPIErrors] leaves every response object as
    it is, except for the body of the response it classifies: status code,
    header and request of that response stay, and so does every other
    object. *)
Theorem coupleAPIErrors_changes_only_the_body (σ : store) (resp : option loc)
    (err : option error) :
  only_body_of resp σ (fst (coupleAPIErrors getAPIError σ resp err)).
Proof.
  unfold coupleAPIErrors.
  destruct err as [e|].
  { apply return_NewError_frame. discriminate. }
  destruct resp as [l|].
  2:{ apply return_NewError_frame. discriminate. }
  destruct (not_2xx (http.StatusCode (σ l))); [|apply only_body_of_refl].
  destruct (_ && _); [apply only_body_of_refl|].
  destruct (negb _).
  - destruct (http.Body (σ l)) as [body|].
    2:{ apply return_NewError_frame. discriminate. }
    unfold io.ReadAll. destruct (io.failure body) as [readErr|].
    + eapply only_body_of_trans; [apply only_body_of_set_Body|].
      apply return_NewError_frame. discriminate.
    + cbn [fst]. apply only_body_of_set_Body.
  - pose proof (call_getAPIError_frame σ l) as H.
    destruct (call_getAPIError getAPIError σ l) as [[a|] σ1]; cbn [snd] in H.
    + destruct (length (Errors a) =? 0)%nat; [exact H|].
      eapply only_body_of_trans; [exact H|].
      apply return_NewError_frame. intros l' [= ->]. reflexivity.
    + eapply only_body_of_trans; [exact H|].
      apply return_NewError_frame. discriminate.
Qed.


(** The error [coupleAPIErrors] returns holds a [*Error], and the pointer is
    nil only when the transport error was a nil [*Error] itself. *)
Lemma coupleAPIErrors_error_is_PtrError (σ : store) (resp : option loc)
    (err : option error) (e : error) :
  snd (snd (coupleAPIErrors getAPIError σ resp err)) = Some e ->
  exists p : option Error,
    e = PtrError p /\ (p = None -> err = Some (PtrError None)).
Proof.
  unfold coupleAPIErrors, return_NewError, call_getAPIError.
  repeat case_match; simplify_eq/=; intros; simplify_eq;
    (eexists; split; [reflexivity|]); try discriminate; intros ->;
    repeat case_match; simplify_eq/=; reflexivity.
Qed.

(** The gateway test of line 70 as a proposition. *)
Lemma gateway_test_false_iff (r : http.Response) :
  (http.StatusCode r =? http.StatusBadGateway)
  && String.eqb (responseContentType r) "text/html" = false
  <-> ~ (http.StatusCode r = 502 /\ responseContentType r = "text/html").
Proof.
  split; [|apply gateway_test_false].
  intros H [Hs Hc]. rewrite Hs, Hc in H. discriminate H.
Qed.

(** [coupleAPIErrors] returns a nil error in two cases and no other: there
    is no transport error, the response is not nil, and either its status
    code is in [200,300), or it is not the gateway page, the content types
    agree and the body decodes to an API error without reasons. The response
    it then returns is the one it was given. *)
Theorem coupleAPIErrors_no_error_iff (σ : store) (resp : option loc)
    (err : option error) :
  (snd (snd (coupleAPIErrors getAPIError σ resp err)) = None
   <-> err = None /\
       exists l : loc,
         resp = Some l /\
         (200 <= http.StatusCode (σ l) < 300
          \/ (~ (http.StatusCode (σ l) = 502
                 /\ responseContentType (σ l) = "text/html")
              /\ responseContentType (σ l) = expectedContentType (σ l)
              /\ exists ae : APIError,
                   fst (getAPIError (σ l)) = Some ae /\ Errors ae = [])))
  /\ (snd (snd (coupleAPIErrors getAPIError σ resp err)) = None ->
      fst (snd (coupleAPIErrors getAPIError σ resp err)) = resp).
Proof.
  split.
  - split.
    + unfold coupleAPIErrors, return_NewError, call_getAPIError.
      destruct err as [e|]; [destruct (NewError _ _ _); discriminate|].
      destruct resp as [l|]; [|destruct (NewError _ _ _); discriminate].
      intros H. split; [reflexivity|]. exists l. split; [reflexivity|].
      destruct (not_2xx (http.StatusCode (σ l))) eqn:Hs;
        [|left; apply not_2xx_false; exact Hs].
      destruct (_ && _) eqn:Hg; [discriminate H|].
      apply gateway_test_false_iff in Hg.
      destruct (String.eqb _ _) eqn:Hc; cbn [negb] in H.
      * apply String.eqb_eq in Hc.
        destruct (getAPIError (σ l)) as [[ae|] b] eqn:Hd;
          [|destruct (NewError _ _ _); discriminate].
        destruct (Errors ae) as [|r rs] eqn:He; cbn in H;
          [|destruct (call_getAPIError _ _ _) as [[?|] ?]; discriminate].
        right. split; [exact Hg|]. split; [exact Hc|].
        exists ae. split; [reflexivity|exact He].
      * destruct (http.Body (σ l)) as [body|];
          [|destruct (NewError _ _ _); discriminate].
        unfold io.ReadAll in H. destruct (io.failure body);
          [destruct (NewError _ _ _)|]; discriminate.
    + intros (-> & l & -> & [Hs|(Hg & Hc & ae & Hd & He)]).
      * apply not_2xx_false in Hs. unfold coupleAPIErrors. rewrite Hs.
        reflexivity.
      * destruct (not_2xx (http.StatusCode (σ l))) eqn:Hs;
          [|unfold coupleAPIErrors; rewrite Hs; reflexivity].
        apply not_2xx_true in Hs.
        rewrite coupleAPIErrors_content_type_agrees by assumption.
        unfold call_getAPIError.
        destruct (getAPIError (σ l)) as [a b]. cbn [fst] in Hd. subst a.
        rewrite He. reflexivity.
  - unfold coupleAPIErrors, return_NewError, call_getAPIError.
    repeat case_match; simplify_eq/=; congruence.
Qed.

(** With no transport error, the error that [coupleAPIErrors] returns for a
    response has the status code of the response, or one of the sentinels 0
    and 2. *)
Lemma coupleAPIErrors_error_code (σ : store) (l : loc) (e : error) :
  snd (snd (coupleAPIErrors getAPIError σ (Some l) None)) = Some e ->
  exists x : Error,
    e = PtrError (Some x)
    /\ (Code x = http.StatusCode (σ l) \/ Code x = 0 \/ Code x = 2).
Proof.
  unfold coupleAPIErrors, return_NewError, call_getAPIError, NewError,
    call_getAPIError.
  repeat case_match; simplify_eq/=; intros; simplify_eq;
    (eexists; split; [reflexivity|]); cbn [Code];
    rewrite ?fn_lookup_insert; cbn; auto.
  left. match goal with H : _ && _ = true |- _ =>
    apply andb_true_iff in H; destruct H as [H _]; apply Z.eqb_eq in H end.
  congruence.
Qed.

(** [ErrHasStatus] and [IsNotFound] do not misreport a classified response:
    on the error that [coupleAPIErrors] returns for a response, the matcher
    answers true only when the status code of the response is among the
    codes asked for, or the sentinel 0 or 2 is; [IsNotFound] answers true
    only for a 404. *)
Theorem ErrHasStatus_of_classified_response (σ : store) (l : loc) (e : error)
    (code : list Z) :
  snd (snd (coupleAPIErrors getAPIError σ (Some l) None)) = Some e ->
  (ErrHasStatus (Some e) code = Returns true ->
   In (http.StatusCode (σ l)) code \/ In 0 code \/ In 2 code)
  /\ (IsNotFound (Some e) = Returns true -> http.StatusCode (σ l) = 404).
Proof.
  intros H. apply coupleAPIErrors_error_code in H as (x & -> & Hx).
  assert (Hgen : forall cs, ErrHasStatus (Some (PtrError (Some x))) cs
                            = Returns true -> In (Code x) cs).
  { intros cs. unfold ErrHasStatus. cbn [errors.As].
    destruct (length cs =? 0)%nat; [discriminate|].
    intros [= Hc]. apply has_code_true. exact Hc. }
  split.
  - intros Ht. apply Hgen in Ht.
    destruct Hx as [Hx|[Hx|Hx]]; rewrite Hx in Ht; auto.
  - intros Ht. apply Hgen in Ht. cbn in Ht.
    destruct Ht as [Ht|[]]. unfold http.StatusNotFound in Ht.
    destruct Hx as [Hx|[Hx|Hx]]; rewrite Hx in Ht; [congruence|lia|lia].
Qed.

(** [ErrHasStatus] does not panic on an error that [coupleAPIErrors]
    returned, unless the transport error given was a nil [*Error]. *)
Theorem ErrHasStatus_of_classified_returns (σ : store) (resp : option loc)
    (err : option error) (e : error) (code : list Z) :
  err <> Some (PtrError None) ->
  snd (snd (coupleAPIErrors getAPIError σ resp err)) = Some e ->
  exists b : bool, ErrHasStatus (Some e) code = Returns b.
Proof.
  intros Hn H. apply coupleAPIErrors_error_is_PtrError in H as (p & -> & Hp).
  destruct p as [x|]; [|exfalso; apply Hn, Hp; reflexivity].
  unfold ErrHasStatus. cbn [errors.As].
  destruct (length code =? 0)%nat; eexists; reflexivity.
Qed.

(** An error that [coupleAPIErrors] returned is returned as it is when it is
    given as the transport error of another classification, whatever the
    response and the store of that one. *)
Theorem coupleAPIErrors_classified_error_passes (σ τ : store)
    (resp resp' : option loc) (err : option error) (e : error) :
  snd (snd (coupleAPIErrors getAPIError σ resp err)) = Some e ->
  coupleAPIErrors getAPIError τ resp' (Some e) = (τ, (None, Some e)).
Proof.
  intros H. apply coupleAPIErrors_error_is_PtrError in H as (p & -> & _).
  reflexivity.
Qed.

(** When the content types agree and the body does not decode, the error
    has Code 2 and a fixed message: line 99 formats the transport error,
    which is nil there, and nothing of the body or of the decoding. *)
Theorem coupleAPIErrors_undecodable_body (σ : store) (l : loc) :
  http.StatusCode (σ l) < 200 \/ 300 <= http.StatusCode (σ l) ->
  ~ (http.StatusCode (σ l) = 502 /\ responseContentType (σ l) = "text/html") ->
  responseContentType (σ l) = expectedContentType (σ l) ->
  fst (getAPIError (σ l)) = None ->
  snd (coupleAPIErrors getAPIError σ (Some l) None)
  = (None, Some (PtrError (Some
       {| Response := None; Code := 2;
          Message := "failed to decode response body: %!w(<nil>)" |}))).
Proof.
  intros Hs Hg Hc Hd.
  rewrite coupleAPIErrors_content_type_agrees by assumption.
  unfold call_getAPIError. destruct (getAPIError (σ l)) as [a b].
  cbn [fst] in Hd. subst a. reflexivity.
Qed.

(** When the content types differ and reading the body fails, the body is
    not put back: the response keeps the stream that was read, and a later
    reader gets none of the bytes read before the failure. *)
Theorem coupleAPIErrors_failed_read_drains (σ : store) (l : loc)
    (body : io.ReadCloser) (readErr : error) :
  http.StatusCode (σ l) < 200 \/ 300 <= http.StatusCode (σ l) ->
  ~ (http.StatusCode (σ l) = 502 /\ responseContentType (σ l) = "text/html") ->
  responseContentType (σ l) <> expectedContentType (σ l) ->
  http.Body (σ l) = Some body ->
  io.failure body = Some readErr ->
  exists left : io.ReadCloser,
    http.Body (fst (coupleAPIErrors getAPIError σ (Some l) None) l) = Some left
    /\ left = snd (io.ReadAll body)
    /\ fst (fst (io.ReadAll left)) = "".
Proof.
  intros Hs Hg Hc Hb Hf.
  rewrite (coupleAPIErrors_content_type_differs getAPIError σ l Hs Hg Hc), Hb, Hf.
  unfold fmt_Errorf_w. rewrite return_NewError_ValError. cbn [fst].
  rewrite fn_lookup_insert. eexists. split; [reflexivity|].
  unfold io.ReadAll. rewrite Hf. split; reflexivity.
Qed.

(** A value that gets a sentinel code never matches an HTTP status: on the
    error [NewError] makes of a string, of an error that is not a [*Error],
    or of a value of another type, [ErrHasStatus] returns false for codes
    that are all at least 100, and [IsNotFound] returns false. *)
Theorem ErrHasStatus_of_sentinel (σ : store) (x : any) (code : list Z) :
  gets_sentinel x ->
  (forall c, In c code -> 100 <= c) ->
  ErrHasStatus (Some (PtrError (snd (NewError getAPIError σ x)))) code
  = Returns false
  /\ IsNotFound (Some (PtrError (snd (NewError getAPIError σ x))))
     = Returns false.
Proof.
  intros Hx Hc.
  assert (Hs : exists e, snd (NewError getAPIError σ x) = Some e
                         /\ 0 <= Code e <= 3).
  { destruct x as [|[p|msg str ws]|l|s|ty [r|]]; try contradiction;
      eexists; (split; [reflexivity|]); cbn;
      unfold ErrorUnsupported, ErrorFromString, ErrorFromError,
        ErrorFromStringer; lia. }
  destruct Hs as (e & -> & He). split.
  - unfold ErrHasStatus. cbn [errors.As].
    destruct (length code =? 0)%nat; [reflexivity|]. f_equal.
    apply not_true_is_false. intros Ht. apply has_code_true in Ht.
    apply Hc in Ht. unfold Error_StatusCode in Ht. lia.
  - unfold IsNotFound, ErrHasStatus, Error_StatusCode, http.StatusNotFound.
    cbn. destruct (Z.eqb_spec (Code e) 404); [lia|reflexivity].
Qed.

End MoreProperties.

(** ** The status matcher, further *)

(** [ErrHasStatus] panics in one case only: a code is given and the first
    [*Error] of the chain is a nil pointer. *)
Theorem ErrHasStatus_panics_iff (err : option error) (code : list Z) :
  (ErrHasStatus err code = Panics
   <-> code <> [] /\ exists e, err = Some e /\ errors.As e = Some None)
  /\ (ErrHasStatus err code = Panics ->
      exists e, err = Some e /\ InChain (PtrError None) e).
Proof.
  assert (H : ErrHasStatus err code = Panics
              <-> code <> [] /\ exists e, err = Some e /\ errors.As e = Some None).
  { unfold ErrHasStatus. split.
    - destruct err as [e|]; [|discriminate].
      destruct code as [|c cs]; [discriminate|]. cbn [length Nat.eqb].
      destruct (errors.As e) as [[x|]|] eqn:Ha; try discriminate.
      intros _. split; [discriminate|]. exists e. split; [reflexivity|exact Ha].
    - intros (Hc & e & -> & Ha). rewrite Ha.
      destruct code; [congruence|reflexivity]. }
  split; [exact H|].
  intros Hp. apply H in Hp as (_ & e & -> & Ha).
  exists e. split; [reflexivity|]. apply As_Some_InChain. exact Ha.
Qed.

(** Only which codes are given matters to [ErrHasStatus], not their order
    nor how often each is given. *)
Theorem ErrHasStatus_same_codes (err : option error) (code code' : list Z) :
  (forall c : Z, In c code <-> In c code') ->
  ErrHasStatus err code = ErrHasStatus err code'.
Proof.
  intros H. unfold ErrHasStatus. destruct err as [e|]; [|reflexivity].
  destruct code as [|c cs], code' as [|c' cs']; try reflexivity.
  - exfalso. apply (H c'). left. reflexivity.
  - exfalso. apply (H c). left. reflexivity.
  - cbn [length Nat.eqb].
    destruct (errors.As e) as [[x|]|]; try reflexivity. f_equal.
    apply eq_true_iff_eq. rewrite !has_code_true. apply H.
Qed.

(** Wrapping with [%w] does not change what [ErrHasStatus] answers. *)
Theorem ErrHasStatus_through_Errorf (prefix : string) (e : error)
    (code : list Z) :
  ErrHasStatus (Some (fmt_Errorf_w prefix (Some e))) code
  = ErrHasStatus (Some e) code.
Proof.
  unfold ErrHasStatus, fmt_Errorf_w. cbn [errors.As].
  destruct (errors.As e) as [p|]; reflexivity.
Qed.

Lemma As_ValError_app (msg : string) (str : option string)
    (ws1 ws2 : list error) (w : error) :
  Forall (fun v => errors.As v = None) ws1 ->
  errors.As w <> None ->
  errors.As (ValError msg str (ws1 ++ w :: ws2)) = errors.As w.
Proof.
  intros H Hw. induction H as [|v ws1 Hv _ IH]; cbn.
  - destruct (errors.As w); [reflexivity|congruence].
  - rewrite Hv. exact IH.
Qed.

(** Of the errors an error wraps, only the first whose chain holds a
    [*Error] counts: the ones after it are not looked at. *)
Theorem ErrHasStatus_first_wrapped (msg : string) (str : option string)
    (ws1 ws2 : list error) (w : error) (code : list Z) :
  Forall (fun v => errors.As v = None) ws1 ->
  errors.As w <> None ->
  ErrHasStatus (Some (ValError msg str (ws1 ++ w :: ws2))) code
  = ErrHasStatus (Some w) code.
Proof.
  intros H Hw. unfold ErrHasStatus.
  rewrite (As_ValError_app msg str ws1 ws2 w H Hw). reflexivity.
Qed.

(** ** The message of an API error *)

Lemma Join_app (l1 l2 : list string) (sep : string) :
  l1 <> [] -> l2 <> [] ->
  strings.Join (l1 ++ l2) sep
  = strings.Join l1 sep +:+ sep +:+ strings.Join l2 sep.
Proof.
  intros H1 H2. induction l1 as [|a l1 IH]; [congruence|].
  destruct l1 as [|b l1].
  - destruct l2 as [|c l2]; [congruence|]. reflexivity.
  - change (strings.Join ((a :: b :: l1) ++ l2) sep)
      with (a +:+ sep +:+ strings.Join ((b :: l1) ++ l2) sep).
    rewrite IH by discriminate.
    change (strings.Join (a :: b :: l1) sep)
      with (a +:+ sep +:+ strings.Join (b :: l1) sep).
    rewrite !append_assoc. reflexivity.
Qed.

(** The message of two lists of reasons put together is the two messages
    joined by the separator. *)
Theorem APIError_Error_app (l1 l2 : list APIErrorReason) :
  l1 <> [] -> l2 <> [] ->
  APIError_Error (mkAPIError (l1 ++ l2))
  = APIError_Error (mkAPIError l1) +:+ "; " +:+ APIError_Error (mkAPIError l2).
Proof.
  intros H1 H2. unfold APIError_Error. cbn [Errors].
  rewrite map_app. apply Join_app.
  - destruct l1; [congruence|discriminate].
  - destruct l2; [congruence|discriminate].
Qed.

Lemma Contains_refl (s : string) : strings.Contains s s.
Proof. exists "", "". rewrite append_empty_r. reflexivity. Qed.

Lemma Contains_trans (s t u : string) :
  strings.Contains s t -> strings.Contains t u -> strings.Contains s u.
Proof.
  intros (p & q & ->) (p' & q' & ->).
  exists (p +:+ p'), (q' +:+ q). rewrite !append_assoc. reflexivity.
Qed.

Lemma Join_contains (l : list string) (sep x : string) :
  In x l -> strings.Contains (strings.Join l sep) x.
Proof.
  induction l as [|a l IH]; [intros []|].
  destruct l as [|b l].
  - intros [->|[]]. apply Contains_refl.
  - change (strings.Join (a :: b :: l) sep)
      with (a +:+ sep +:+ strings.Join (b :: l) sep).
    intros [->|Hin].
    + exists "", (sep +:+ strings.Join (b :: l) sep). reflexivity.
    + destruct (IH Hin) as (p & q & Hj). rewrite Hj.
      exists (a +:+ sep +:+ p), q. rewrite !append_assoc. reflexivity.
Qed.

Lemma APIErrorReason_Error_contains (r : APIErrorReason) :
  strings.Contains (APIErrorReason_Error r) (Reason r)
  /\ strings.Contains (APIErrorReason_Error r) (Field r).
Proof.
  unfold APIErrorReason_Error. destruct (Field r) as [|c f].
  - cbn. split; [apply Contains_refl|]. exists "", (Reason r). reflexivity.
  - cbn [String.length Nat.eqb]. split.
    + exists ("[" +:+ String c f +:+ "] "), "".
      rewrite append_empty_r, !append_assoc. reflexivity.
    + exists "[", ("] " +:+ Reason r). reflexivity.
Qed.

(** No reason is dropped from the message: the text and the field of every
    reason of an API error occur in its message. *)
Theorem APIError_Error_keeps_every_reason (e : APIError) (r : APIErrorReason) :
  In r (Errors e) ->
  strings.Contains (APIError_Error e) (Reason r)
  /\ strings.Contains (APIError_Error e) (Field r).
Proof.
  intros H. unfold APIError_Error.
  assert (Hj : strings.Contains
                 (strings.Join (map APIErrorReason_Error (Errors e)) "; ")
                 (APIErrorReason_Error r)).
  { apply Join_contains. apply in_map. exact H. }
  destruct (APIErrorReason_Error_contains r) as [Hr Hf].
  split; eapply Contains_trans; eassumption.
Qed.

(** ** The text of an error *)

(** Below 1000 the verb [%03d] writes three digits, from which the number
    is read back. *)
Lemma fmt_03d_below_1000 (n : Z) :
  0 <= n < 1000 ->
  String.length (fmt_03d n) = 3%nat /\ read_3_digits (fmt_03d n) = n.
Proof.
  intros Hn.
  assert (Hall : forallb
            (fun k : nat =>
               (String.length (fmt_03d (Z.of_nat k)) =? 3)%nat
               && (read_3_digits (fmt_03d (Z.of_nat k)) =? Z.of_nat k))
            (seq 0 1000) = true) by (vm_compute; reflexivity).
  rewrite forallb_forall in Hall.
  specialize (Hall (Z.to_nat n)).
  rewrite Z2Nat.id in Hall by lia.
  assert (Hin : In (Z.to_nat n) (seq 0 1000)) by (apply in_seq; lia).
  apply Hall in Hin. apply andb_true_iff in Hin as [H1 H2].
  split; [apply Nat.eqb_eq; exact H1|apply Z.eqb_eq; exact H2].
Qed.

(** The text of an error tells its code and its message: two errors with
    codes from 0 to 999 that print the same have the same Code and the same
    Message. *)
Theorem Error_Error_tells_code_and_message (e1 e2 : Error) :
  0 <= Code e1 < 1000 ->
  0 <= Code e2 < 1000 ->
  Error_Error e1 = Error_Error e2 ->
  Code e1 = Code e2 /\ Message e1 = Message e2.
Proof.
  intros H1 H2 He.
  destruct (fmt_03d_below_1000 _ H1) as [L1 R1].
  destruct (fmt_03d_below_1000 _ H2) as [L2 R2].
  unfold Error_Error in He.
  destruct (fmt_03d (Code e1)) as [|a1 [|b1 [|c1 [|? ?]]]]; try discriminate L1.
  destruct (fmt_03d (Code e2)) as [|a2 [|b2 [|c2 [|? ?]]]]; try discriminate L2.
  cbv [String.append] in He. injection He as -> -> -> Hm.
  split; [congruence|exact Hm].
Qed.

(** ** [Error.Is] *)

(** Matching an error against a [*Error] compares the codes and nothing
    else: it answers true exactly when the codes are equal, whatever the
    messages and responses, so it is reflexive, symmetric and transitive. *)
Theorem Error_Is_compares_codes
    (foreign_StatusCode : error -> option (outcome Z)) :
  (forall a b : Error,
      Error_Is foreign_StatusCode a (Some (PtrError (Some b))) = Returns true
      <-> Code a = Code b)
  /\ (forall a : Error,
        Error_Is foreign_StatusCode a (Some (PtrError (Some a))) = Returns true)
  /\ (forall a b : Error,
        Error_Is foreign_StatusCode a (Some (PtrError (Some b)))
        = Error_Is foreign_StatusCode b (Some (PtrError (Some a))))
  /\ (forall a b c : Error,
        Error_Is foreign_StatusCode a (Some (PtrError (Some b))) = Returns true ->
        Error_Is foreign_StatusCode b (Some (PtrError (Some c))) = Returns true ->
        Error_Is foreign_StatusCode a (Some (PtrError (Some c))) = Returns true).
Proof.
  assert (H : forall a b : Error,
             Error_Is foreign_StatusCode a (Some (PtrError (Some b)))
             = Returns (Code a =? Code b)) by reflexivity.
  assert (Hiff : forall a b : Error,
             Error_Is foreign_StatusCode a (Some (PtrError (Some b)))
             = Returns true <-> Code a = Code b).
  { intros a b. rewrite H. split.
    - intros [= Hc]. apply Z.eqb_eq. exact Hc.
    - intros Hc. f_equal. apply Z.eqb_eq. exact Hc. }
  split; [exact Hiff|]. split; [|split].
  - intros a. apply Hiff. reflexivity.
  - intros a b. rewrite !H. f_equal. apply Z.eqb_sym.
  - intros a b c Hab Hbc. apply Hiff in Hab, Hbc. apply Hiff. congruence.
Qed.

(** What [errors.As] finds for the interface with [StatusCode], when no
    type but [*Error] has the method, is what it finds for [*Error]. *)
Lemma As_StatusCode_plain (t : error) :
  As_StatusCode (fun _ => None) t
  = match errors.As t with
    | Some (Some e) => Some (Returns (Error_StatusCode e))
    | Some None => Some Panics
    | None => None
    end.
Proof.
  induction t as [[e|]|msg str ws IH] using error_nested_ind;
    [reflexivity|reflexivity|].
  cbn. induction IH as [|w ws Hw _ IHws]; [reflexivity|].
  rewrite Hw. destruct (errors.As w) as [[e|]|]; [reflexivity|reflexivity|].
  exact IHws.
Qed.

(** On errors of which no type but [*Error] has a [StatusCode] method, the
    two ways of matching agree: [err.Is(target)] is [ErrHasStatus(target,
    err.Code)], panic included. *)
Theorem Error_Is_is_ErrHasStatus (err : Error) (target : option error) :
  Error_Is (fun _ => None) err target = ErrHasStatus target [Code err].
Proof.
  destruct target as [t|]; [|reflexivity].
  unfold Error_Is, ErrHasStatus. cbn [length Nat.eqb].
  assert (Hx : match StatusCode_method (fun _ => None) t with
               | Some r => Some r
               | None => As_StatusCode (fun _ => None) t
               end = As_StatusCode (fun _ => None) t).
  { destruct t as [[e|]|msg str ws]; reflexivity. }
  cbv zeta. rewrite Hx, As_StatusCode_plain.
  destruct (errors.As t) as [[e|]|]; try reflexivity.
  cbn [has_code]. unfold Error_StatusCode. rewrite (Z.eqb_sym (Code e)).
  destruct (Code err =? Code e); reflexivity.
Qed.

(** ** The further properties at sample inputs *)

(** A 404 with one reason, and the error it is classified as. *)
Lemma ErrHasStatus_of_classified_response_witness :
  let σ := sample_store (sample_response 404 "application/json" "one reason"
                           "application/json") in
  let e := PtrError (Some {| Response := Some 0%nat; Code := 404;
                             Message := "[entity_ids] Entity ID is required" |}) in
  snd (snd (coupleAPIErrors sample_getAPIError σ (Some 0%nat) None)) = Some e
  /\ (ErrHasStatus (Some e) [500; 404] = Returns true ->
      In 404 [500; 404] \/ In 0 [500; 404] \/ In 2 [500; 404])
  /\ (IsNotFound (Some e) = Returns true -> 404 = 404).
Proof.
  cbv zeta. split; [vm_compute; reflexivity|].
  refine (ErrHasStatus_of_classified_response sample_getAPIError
            (sample_store (sample_response 404 "application/json" "one reason"
                             "application/json")) 0%nat _ [500; 404] _).
  vm_compute. reflexivity.
Defined.

Lemma ErrHasStatus_of_classified_returns_witness :
  exists b : bool,
    ErrHasStatus
      (Some (PtrError (Some {| Response := None; Code := 2;
                               Message := "connection refused" |})))
      [404] = Returns b.
Proof.
  refine (ErrHasStatus_of_classified_returns sample_getAPIError
            (sample_store (sample_response 200 "" "" "")) None
            (Some (fmt_Errorf "connection refused")) _ [404] _ _).
  - discriminate.
  - reflexivity.
Defined.

Lemma coupleAPIErrors_classified_error_passes_witness :
  let e := PtrError (Some {| Response := None; Code := 2;
                             Message := "response is nil" |}) in
  let τ := sample_store (sample_response 200 "text/plain" "ok" "text/plain") in
  coupleAPIErrors sample_getAPIError τ (Some 0%nat) (Some e)
  = (τ, (None, Some e)).
Proof.
  cbv zeta.
  refine (coupleAPIErrors_classified_error_passes sample_getAPIError
            (sample_store (sample_response 200 "" "" "")) _ None _ None _ _).
  reflexivity.
Defined.

Lemma coupleAPIErrors_undecodable_body_witness :
  snd (coupleAPIErrors sample_getAPIError
         (sample_store (sample_response 500 "application/json" "<html>"
                          "application/json")) (Some 0%nat) None)
  = (None, Some (PtrError (Some
       {| Response := None; Code := 2;
          Message := "failed to decode response body: %!w(<nil>)" |}))).
Proof.
  apply coupleAPIErrors_undecodable_body.
  - sample_side.
  - sample_side.
  - sample_side.
  - reflexivity.
Defined.

Lemma coupleAPIErrors_failed_read_drains_witness :
  let r := http.mkResponse 503 (Some {[ "Content-Type" := ["text/plain"] ]})
             (Some (io.mkReader "serv" (Some (fmt_Errorf "unexpected EOF"))))
             None in
  exists left : io.ReadCloser,
    http.Body (fst (coupleAPIErrors sample_getAPIError (sample_store r)
                      (Some 0%nat) None) 0%nat) = Some left
    /\ fst (fst (io.ReadAll left)) = "".
Proof.
  cbv zeta.
  destruct (coupleAPIErrors_failed_read_drains sample_getAPIError
            (sample_store
               (http.mkResponse 503 (Some {[ "Content-Type" := ["text/plain"] ]})
                  (Some (io.mkReader "serv" (Some (fmt_Errorf "unexpected EOF"))))
                  None)) 0%nat
            (io.mkReader "serv" (Some (fmt_Errorf "unexpected EOF")))
            (fmt_Errorf "unexpected EOF")) as (left & H1 & _ & H2).
  - sample_side.
  - sample_side.
  - sample_side.
  - reflexivity.
  - reflexivity.
  - exists left. split; [exact H1|exact H2].
Defined.

Lemma ErrHasStatus_of_sentinel_witness :
  let σ := sample_store (sample_response 200 "" "" "") in
  ErrHasStatus
    (Some (PtrError (snd (NewError sample_getAPIError σ (any_string "disk full")))))
    [404; 500] = Returns false
  /\ IsNotFound
       (Some (PtrError (snd (NewError sample_getAPIError σ
                               (any_string "disk full")))))
     = Returns false.
Proof.
  cbv zeta. apply ErrHasStatus_of_sentinel.
  - exact I.
  - intros c [<-|[<-|[]]]; lia.
Defined.

Lemma ErrHasStatus_same_codes_witness :
  let err := Some (PtrError (Some (mkError None 404 "Not found"))) in
  ErrHasStatus err [404; 500; 404] = ErrHasStatus err [500; 404].
Proof.
  cbv zeta. apply ErrHasStatus_same_codes. intros c. cbn. tauto.
Defined.

Lemma ErrHasStatus_first_wrapped_witness :
  let not_found := PtrError (Some (mkError None 404 "Not found")) in
  let unavailable := PtrError (Some (mkError None 503 "Unavailable")) in
  let joined := ValError "several" None
                  [fmt_Errorf "timeout"; not_found; unavailable] in
  ErrHasStatus (Some joined) [503] = ErrHasStatus (Some not_found) [503]
  /\ ErrHasStatus (Some joined) [503] = Returns false.
Proof.
  cbv zeta. split; [|reflexivity].
  apply (ErrHasStatus_first_wrapped "several" None [fmt_Errorf "timeout"]
           [PtrError (Some (mkError None 503 "Unavailable"))]
           (PtrError (Some (mkError None 404 "Not found"))) [503]).
  - constructor; [reflexivity|constructor].
  - discriminate.
Defined.

Lemma APIError_Error_app_witness :
  APIError_Error
    (mkAPIError ([mkReason "Entity ID is required" "entity_ids"]
                 ++ [mkReason "Too many requests" ""]))
  = "[entity_ids] Entity ID is required" +:+ "; " +:+ "Too many requests".
Proof.
  apply (APIError_Error_app [mkReason "Entity ID is required" "entity_ids"]
           [mkReason "Too many requests" ""]); discriminate.
Defined.

Lemma APIError_Error_keeps_every_reason_witness :
  let e := mkAPIError [mkReason "Entity ID is required" "entity_ids";
                       mkReason "Too many requests" ""] in
  strings.Contains (APIError_Error e) "Too many requests"
  /\ strings.Contains (APIError_Error e) "".
Proof.
  cbv zeta.
  apply (APIError_Error_keeps_every_reason
           (mkAPIError [mkReason "Entity ID is required" "entity_ids";
                        mkReason "Too many requests" ""])
           (mkReason "Too many requests" "")).
  right. left. reflexivity.
Defined.

Lemma Error_Error_tells_code_and_message_witness :
  let e1 := mkError None 404 "Not found" in
  let e2 := mkError (Some 0%nat) 404 "Not found" in
  Error_Error e1 = "[404] Not found"
  /\ Code e1 = Code e2 /\ Message e1 = Message e2.
Proof.
  cbv zeta. split; [reflexivity|].
  apply Error_Error_tells_code_and_message.
  - cbn. lia.
  - cbn. lia.
  - reflexivity.
Defined.
